(** * Index-permission panel of the role-edit page

    A shallow embedding of the pure part of
    [src/public/apps/configuration/panels/role-edit/index-permission-panel.tsx]:
    the conversion between the backend shape of a role's index permissions
    and the editable form state, the summary text of each accordion and the
    state updaters behind the "Remove" and "Add another index permission"
    buttons.

    JavaScript strings are modelled by [string]; the marker ['~'] is a single
    code unit in both encodings, so [startsWith('~')] and [replace(/^~/, '')]
    look at the first character only. *)

From Stdlib Require Import String Ascii.
From stdpp Require Import base list strings pretty.

Local Open Scope string_scope.
Local Open Scope list_scope.

(** ** Collaborators that live outside this file *)

(** [combo-box-utils] is imported by the panel but its code is not part of
    the file under study, so the option type and the two conversions are an
    interface.  The panel only ever calls them through [Array.map]. *)
Class ComboBoxUtils := {
  ComboBoxOption : Type;
  stringToComboBoxOption : string -> ComboBoxOption;
  comboBoxOptionToString : ComboBoxOption -> string;
}.

(** The one law the round-trip properties rely on: the string form of the
    option made from a token is that token. *)
Definition ComboBoxRoundTrip `{ComboBoxUtils} : Prop :=
  forall s : string, comboBoxOptionToString (stringToComboBoxOption s) = s.

(** Modelled from the spec: the combo-box option of [combo-box-utils] (not
    among the sources).  "Each token becomes a selectable option" and an
    option is converted back "to its string form": an option that carries the
    token as its label. *)
Record LabelOption := { label : string }.

(** Modelled from the spec: the instance of the [combo-box-utils] interface
    on labelled options, used to run the model on concrete inputs. *)
Definition labelComboBoxUtils : ComboBoxUtils := {|
  ComboBoxOption := LabelOption;
  stringToComboBoxOption := fun s => {| label := s |};
  comboBoxOptionToString := fun o => label o;
|}.

(** Modelled from the spec: [FieldLevelSecurityMethod] is declared in
    [./types] (not among the sources); the spec gives it as
    [enum{include, exclude}] and the code uses the literals ['include'] and
    ['exclude']. *)
Inductive FieldLevelSecurityMethod := include | exclude.

(** Modelled from the spec: [RoleIndexPermission] is declared in
    [../../types] (not among the sources).  The fields are the ones the
    panel reads and writes; the spec calls it WireIndexPermission. *)
Record RoleIndexPermission := {
  index_patterns : list string;
  dls : string;
  fls : list string;
  masked_fields : list string;
  allowed_actions : list string;
}.

(** A state setter receives an updater function ([SetStateAction] in its
    functional form); an event handler is modelled by the updater it hands
    to the setter. *)
Definition SetStateAction (S : Type) : Type := S -> S.

(** Modelled from the spec: [appendElementToArray] of [array-state-utils]
    (not among the sources).  "An add action appends a fresh empty entry to
    the parent array", as "an atomic replace-the-array-reference operation".
    The panel passes the empty path [[]], which addresses the array itself. *)
Definition appendElementToArray {T : Type} (newElement : T)
  : SetStateAction (list T) :=
  fun prevState => prevState ++ [newElement].

(** Modelled from the spec: [removeElementFromArray] of [array-state-utils]
    (not among the sources).  "A delete action removes the entry at that
    index from the parent array"; the panel passes the empty path [[]].  The
    spec is silent about an index past the end; the panel only passes
    indices of entries it has rendered. *)
Definition removeElementFromArray {T : Type} (index : nat)
  : SetStateAction (list T) :=
  fun prevState => delete index prevState.

(** ** JavaScript string and array primitives used by the panel *)

Module Js.

(** [s.startsWith('~')]. *)
Definition startsWithTilde (s : string) : bool :=
  match s with
  | String c _ => Ascii.eqb c "~"
  | EmptyString => false
  end.

(** [s.replace(/^~/, '')]: the pattern is anchored and not global, so at
    most the first character is removed. *)
Definition replaceLeadingTilde (s : string) : string :=
  match s with
  | String c rest => if Ascii.eqb c "~" then rest else s
  | EmptyString => s
  end.

(** [xs.some(p)]. *)
Definition some {A : Type} (p : A -> bool) (xs : list A) : bool :=
  existsb p xs.

(** [xs.join(sep)]. *)
Fixpoint join (sep : string) (xs : list string) : string :=
  match xs with
  | [] => ""
  | [x] => x
  | x :: rest => x +:+ sep +:+ join sep rest
  end.

(** [a || b] on strings: the empty string is the only falsy string. *)
Definition orElse (a b : string) : string :=
  match a with
  | EmptyString => b
  | String _ _ => a
  end.

End Js.

Section IndexPermissionPanel.

Context `{ComboBoxUtils}.

Definition ComboBoxOptions : Type := list ComboBoxOption.

(** [RoleIndexPermissionStateClass] of [./types], with the fields of the
    object literals built in this file. *)
Record RoleIndexPermissionStateClass := {
  indexPatterns : ComboBoxOptions;
  allowedActions : ComboBoxOptions;
  docLevelSecurity : string;
  fieldLevelSecurityMethod : FieldLevelSecurityMethod;
  fieldLevelSecurityFields : ComboBoxOptions;
  maskedFields : ComboBoxOptions;
}.

Definition getEmptyIndexPermission : RoleIndexPermissionStateClass := {|
  indexPatterns := [];
  allowedActions := [];
  docLevelSecurity := "";
  fieldLevelSecurityMethod := exclude;
  fieldLevelSecurityFields := [];
  maskedFields := [];
|}.

(** Leading ~ indicates exclude. *)
Definition getFieldLevelSecurityMethod
    (fieldLevelSecurityRawFields : list string) : FieldLevelSecurityMethod :=
  if Js.some Js.startsWithTilde fieldLevelSecurityRawFields
  then exclude else include.

Definition getFieldLevelSecurityFields
    (fieldLevelSecurityRawFields : list string) : ComboBoxOptions :=
  map stringToComboBoxOption
    (map Js.replaceLeadingTilde fieldLevelSecurityRawFields).

(** The source tests [method === 'include'] and treats every other value as
    exclude; the method type has the two values only. *)
Definition packFieldLevelSecurity (method : FieldLevelSecurityMethod)
    (fieldOptions : ComboBoxOptions) : list string :=
  let fields := map comboBoxOptionToString fieldOptions in
  match method with
  | include => fields
  | exclude => map (fun field => "~" +:+ field) fields
  end.

Definition buildIndexPermissionState (indexPerm : list RoleIndexPermission)
  : list RoleIndexPermissionStateClass :=
  map (fun perm => {|
    indexPatterns := map stringToComboBoxOption (index_patterns perm);
    allowedActions := [];
    docLevelSecurity := dls perm;
    fieldLevelSecurityMethod := getFieldLevelSecurityMethod (fls perm);
    fieldLevelSecurityFields := getFieldLevelSecurityFields (fls perm);
    maskedFields := [];
  |}) indexPerm.

Definition unbuildIndexPermissionState
    (indexPerm : list RoleIndexPermissionStateClass)
  : list RoleIndexPermission :=
  map (fun perm => {|
    index_patterns := map comboBoxOptionToString (indexPatterns perm);
    dls := docLevelSecurity perm;
    fls := packFieldLevelSecurity (fieldLevelSecurityMethod perm)
             (fieldLevelSecurityFields perm);
    masked_fields := map comboBoxOptionToString (maskedFields perm);
    allowed_actions := map comboBoxOptionToString (allowedActions perm);
  |}) indexPerm.

(** *** The rendered panel, reduced to what the properties speak about *)

(** One [EuiAccordion]: its id, the text of its button and the updater
    dispatched by its "Remove" button.  The rows inside the accordion show
    the entry's attributes as they are and are left out, and with them the
    option universe, which only feeds the permission combo box; the state
    setter is the receiver of the updaters. *)
Record IndexPermissionAccordion := {
  accordionId : string;
  buttonContent : string;
  removeOnClick : SetStateAction (list RoleIndexPermissionStateClass);
}.

Definition generateIndexPermissionPanels
    (indexPermissions : list RoleIndexPermissionStateClass)
  : list IndexPermissionAccordion :=
  imap (fun arrayIndex permission => {|
    accordionId := "index-permission-" +:+ pretty arrayIndex;
    buttonContent :=
      Js.orElse
        (Js.join ", " (map comboBoxOptionToString (indexPatterns permission)))
        "Add index permission";
    removeOnClick := removeElementFromArray arrayIndex;
  |}) indexPermissions.

(** [IndexPermissionPanel]: the accordions and the updater dispatched by
    the "Add another index permission" button. *)
Record IndexPermissionPanelView := {
  panels : list IndexPermissionAccordion;
  addOnClick : SetStateAction (list RoleIndexPermissionStateClass);
}.

Definition IndexPermissionPanel
    (state : list RoleIndexPermissionStateClass) : IndexPermissionPanelView := {|
  panels := generateIndexPermissionPanels state;
  addOnClick := appendElementToArray getEmptyIndexPermission;
|}.

End IndexPermissionPanel.

(** ** Vocabulary of the properties *)

(** A token that starts with the exclusion marker. *)
Definition MarkerPrefixed (s : string) : Prop :=
  exists rest : string, s = "~" +:+ rest.

(** [StripsLeadingMarker t t'] : [t'] is [t] without one leading marker; a
    token that does not start with the marker is left as it is. *)
Inductive StripsLeadingMarker : string -> string -> Prop :=
  | strips_marked (rest : string) :
      StripsLeadingMarker ("~" +:+ rest) rest
  | strips_unmarked (s : string) :
      ~ MarkerPrefixed s -> StripsLeadingMarker s s.

(** The convention on a wire [fls] list: all tokens carry the marker, or
    none does.  The empty list is uniform both ways. *)
Definition UniformlyPrefixed (tokens : list string) : Prop :=
  Forall MarkerPrefixed tokens \/ Forall (fun s => ~ MarkerPrefixed s) tokens.

(** What the two conversions in a row do to a token list: the [fls] of
    [unbuildIndexPermissionState (buildIndexPermissionState [perm])]. *)
Definition flsRoundTrip `{ComboBoxUtils} (tokens : list string) : list string :=
  packFieldLevelSecurity (getFieldLevelSecurityMethod tokens)
    (getFieldLevelSecurityFields tokens).

(** An option that is the option of its own string form: converting it to
    its string and back gives the same option. *)
Definition CanonicalOption `{ComboBoxUtils} (o : ComboBoxOption) : Prop :=
  stringToComboBoxOption (comboBoxOptionToString o) = o.

(** [MarksUnprefixed t t'] : a token that carries the marker is kept, a token
    that does not gets the marker in front. *)
Definition MarksUnprefixed (t t' : string) : Prop :=
  (MarkerPrefixed t /\ t' = t) \/ (~ MarkerPrefixed t /\ t' = "~" +:+ t).

(** ** Lemmas on the JavaScript primitives *)

Section Primitives.

Lemma startsWithTilde_true (s : string) :
  Js.startsWithTilde s = true <-> MarkerPrefixed s.
Proof.
  unfold MarkerPrefixed. destruct s as [|c rest]; simpl.
  - split; [discriminate | intros [r Hr]; discriminate].
  - rewrite Ascii.eqb_eq. split.
    + intros ->. now exists rest.
    + intros [r Hr]. now injection Hr.
Qed.

Lemma startsWithTilde_false (s : string) :
  Js.startsWithTilde s = false <-> ~ MarkerPrefixed s.
Proof.
  rewrite <- startsWithTilde_true. destruct (Js.startsWithTilde s); split;
    congruence.
Qed.

Lemma replaceLeadingTilde_marked (rest : string) :
  Js.replaceLeadingTilde ("~" +:+ rest) = rest.
Proof. reflexivity. Qed.

Lemma replaceLeadingTilde_unmarked (s : string) :
  ~ MarkerPrefixed s -> Js.replaceLeadingTilde s = s.
Proof.
  intros Hs. apply startsWithTilde_false in Hs.
  destruct s as [|c rest]; simpl in *; [reflexivity|]. now rewrite Hs.
Qed.

Lemma replaceLeadingTilde_strips (s : string) :
  StripsLeadingMarker s (Js.replaceLeadingTilde s).
Proof.
  destruct (Js.startsWithTilde s) eqn:Hs.
  - apply startsWithTilde_true in Hs as [rest ->].
    rewrite replaceLeadingTilde_marked. constructor.
  - apply startsWithTilde_false in Hs.
    rewrite replaceLeadingTilde_unmarked by assumption. now constructor.
Qed.

Lemma StripsLeadingMarker_functional (s a b : string) :
  StripsLeadingMarker s a -> StripsLeadingMarker s b -> a = b.
Proof.
  intros Ha Hb. destruct Ha as [rest|s Hs]; inversion Hb; subst.
  - match goal with Heq : _ +:+ _ = _ +:+ _ |- _ => exact (eq_sym Heq) end.
  - exfalso. match goal with Hn : ~ MarkerPrefixed _ |- _ => apply Hn end.
    now exists rest.
  - exfalso. apply Hs. now exists b.
  - reflexivity.
Qed.

Lemma some_startsWithTilde_true (tokens : list string) :
  Js.some Js.startsWithTilde tokens = true <-> Exists MarkerPrefixed tokens.
Proof.
  unfold Js.some. induction tokens as [|t tokens IH]; simpl.
  - split; [discriminate | intros Hex; inversion Hex].
  - rewrite orb_true_iff, Exists_cons, IH, startsWithTilde_true. tauto.
Qed.

Lemma some_startsWithTilde_false (tokens : list string) :
  Js.some Js.startsWithTilde tokens = false <->
  Forall (fun s => ~ MarkerPrefixed s) tokens.
Proof.
  unfold Js.some. induction tokens as [|t tokens IH]; simpl.
  - split; [constructor | reflexivity].
  - rewrite orb_false_iff, Forall_cons, IH, startsWithTilde_false. tauto.
Qed.

Lemma map_replaceLeadingTilde_strips (tokens : list string) :
  Forall2 StripsLeadingMarker tokens (map Js.replaceLeadingTilde tokens).
Proof.
  induction tokens; simpl; constructor;
    auto using replaceLeadingTilde_strips.
Qed.

(** Putting the marker back in front of a stripped token gives the token
    itself exactly when the token carried the marker. *)
Lemma remark_stripped (s : string) :
  "~" +:+ Js.replaceLeadingTilde s = s <-> MarkerPrefixed s.
Proof.
  split.
  - intros Hs. now exists (Js.replaceLeadingTilde s).
  - intros [rest ->]. reflexivity.
Qed.

Lemma join_empty (sep : string) (xs : list string) :
  sep <> "" -> (Js.join sep xs = "" <-> xs = [] \/ xs = [""]).
Proof.
  intros Hsep. destruct xs as [|x [|y rest]]; simpl.
  - intuition.
  - split; [intros ->; now right | intros [Hx|Hx]; congruence].
  - split.
    + destruct x; simpl; [|discriminate].
      destruct sep; simpl; [congruence | discriminate].
    + intros [Hx|Hx]; discriminate.
Qed.

End Primitives.

(** ** Properties of the conversion functions *)

Section Conversion.

Context `{ComboBoxUtils}.

Implicit Types (perm : RoleIndexPermission)
               (entry : RoleIndexPermissionStateClass)
               (tokens : list string).

Lemma map_toString_ofString (xs : list string) :
  ComboBoxRoundTrip ->
  map comboBoxOptionToString (map stringToComboBoxOption xs) = xs.
Proof.
  intros Hrt. induction xs as [|x xs IH]; simpl; [reflexivity|].
  now rewrite Hrt, IH.
Qed.

Lemma unbuild_build_singleton perm :
  ComboBoxRoundTrip ->
  unbuildIndexPermissionState (buildIndexPermissionState [perm]) =
  [ {| index_patterns := index_patterns perm;
       dls := dls perm;
       fls := flsRoundTrip (fls perm);
       masked_fields := [];
       allowed_actions := [] |} ].
Proof.
  intros Hrt. unfold unbuildIndexPermissionState, buildIndexPermissionState.
  simpl. now rewrite map_toString_ofString.
Qed.

Lemma flsRoundTrip_unfold tokens :
  ComboBoxRoundTrip ->
  flsRoundTrip tokens =
  if Js.some Js.startsWithTilde tokens
  then map (fun t => "~" +:+ Js.replaceLeadingTilde t) tokens
  else map Js.replaceLeadingTilde tokens.
Proof.
  intros Hrt.
  unfold flsRoundTrip, getFieldLevelSecurityMethod, getFieldLevelSecurityFields,
    packFieldLevelSecurity.
  rewrite map_toString_ofString by assumption.
  destruct (Js.some Js.startsWithTilde tokens); [|reflexivity].
  now rewrite map_map.
Qed.

Lemma map_remark_all_prefixed tokens :
  map (fun t => "~" +:+ Js.replaceLeadingTilde t) tokens = tokens <->
  Forall MarkerPrefixed tokens.
Proof.
  induction tokens as [|t tokens IH].
  - split; [constructor | reflexivity].
  - rewrite Forall_cons, <- IH, <- remark_stripped. simpl. split.
    + intros Heq. now injection Heq.
    + intros [-> ->]. reflexivity.
Qed.

Lemma map_strip_none_prefixed tokens :
  Forall (fun s => ~ MarkerPrefixed s) tokens ->
  map Js.replaceLeadingTilde tokens = tokens.
Proof.
  induction 1 as [|t tokens Ht _ IH]; simpl; [reflexivity|].
  now rewrite replaceLeadingTilde_unmarked, IH.
Qed.

Lemma flsRoundTrip_uniform tokens :
  ComboBoxRoundTrip -> UniformlyPrefixed tokens -> flsRoundTrip tokens = tokens.
Proof.
  intros Hrt Hu. rewrite flsRoundTrip_unfold by assumption.
  destruct (Js.some Js.startsWithTilde tokens) eqn:Hsome.
  - destruct Hu as [Hall|Hnone].
    + now apply map_remark_all_prefixed.
    + apply some_startsWithTilde_false in Hnone. congruence.
  - apply map_strip_none_prefixed. now apply some_startsWithTilde_false.
Qed.

Lemma flsRoundTrip_literal_uniform tokens :
  ComboBoxRoundTrip -> flsRoundTrip tokens = tokens -> UniformlyPrefixed tokens.
Proof.
  intros Hrt. rewrite flsRoundTrip_unfold by assumption.
  destruct (Js.some Js.startsWithTilde tokens) eqn:Hsome.
  - intros Heq. left. now apply map_remark_all_prefixed.
  - intros _. right. now apply some_startsWithTilde_false.
Qed.

(** C1.  For a wire permission whose [fls] is empty, or has the marker on
    every token, or on no token, building the state of the one-element list
    and unbuilding it gives a one-element list with the same [fls],
    [index_patterns] and [dls], and with empty [allowed_actions] and
    [masked_fields]. *)
Theorem unbuild_build_uniform_fls perm :
  ComboBoxRoundTrip ->
  fls perm = [] \/
  Forall MarkerPrefixed (fls perm) \/
  Forall (fun s => ~ MarkerPrefixed s) (fls perm) ->
  unbuildIndexPermissionState (buildIndexPermissionState [perm]) =
  [ {| index_patterns := index_patterns perm;
       dls := dls perm;
       fls := fls perm;
       masked_fields := [];
       allowed_actions := [] |} ].
Proof.
  intros Hrt Hfls. rewrite unbuild_build_singleton by assumption.
  rewrite flsRoundTrip_uniform; [reflexivity | assumption |].
  destruct Hfls as [Hnil | [Hall | Hnone]].
  - rewrite Hnil. left. constructor.
  - now left.
  - now right.
Qed.

(** C2.  Every state entry built from a wire permission has method
    [exclude] exactly when some [fls] token starts with the marker and
    [include] otherwise, and its field options are the options of the
    tokens with one leading marker stripped from each; the three stated
    values of [getFieldLevelSecurityMethod] hold. *)
Theorem build_method_and_fields (indexPerm : list RoleIndexPermission) :
  Forall2
    (fun perm entry =>
       (fieldLevelSecurityMethod entry = exclude <->
          Exists MarkerPrefixed (fls perm)) /\
       (fieldLevelSecurityMethod entry = include <->
          ~ Exists MarkerPrefixed (fls perm)) /\
       exists stripped : list string,
         Forall2 StripsLeadingMarker (fls perm) stripped /\
         fieldLevelSecurityFields entry = map stringToComboBoxOption stripped)
    indexPerm (buildIndexPermissionState indexPerm) /\
  getFieldLevelSecurityMethod [] = include /\
  getFieldLevelSecurityMethod ["~a"] = exclude /\
  getFieldLevelSecurityMethod ["a"; "~b"] = exclude.
Proof.
  split; [|repeat split; reflexivity].
  unfold buildIndexPermissionState.
  induction indexPerm as [|perm indexPerm IH]; simpl; constructor; [|exact IH].
  simpl. unfold getFieldLevelSecurityMethod.
  rewrite <- some_startsWithTilde_true.
  destruct (Js.some Js.startsWithTilde (fls perm)); repeat split;
    try congruence.
  - eexists; split; [apply map_replaceLeadingTilde_strips | reflexivity].
  - eexists; split; [apply map_replaceLeadingTilde_strips | reflexivity].
Qed.

(** C3.  [packFieldLevelSecurity] gives the string forms of the field
    options, each with the marker in front exactly when the method is
    [exclude]; [unbuildIndexPermissionState] uses it for [fls], maps the
    index patterns, masked fields and allowed actions to their string forms
    and copies the document-level security text. *)
Theorem pack_and_unbuild :
  (forall fieldOptions : ComboBoxOptions,
      packFieldLevelSecurity include fieldOptions =
      map comboBoxOptionToString fieldOptions) /\
  (forall fieldOptions : ComboBoxOptions,
      packFieldLevelSecurity exclude fieldOptions =
      map (fun o => "~" +:+ comboBoxOptionToString o) fieldOptions) /\
  (forall a b : ComboBoxOption,
      packFieldLevelSecurity include [a; b] =
      [comboBoxOptionToString a; comboBoxOptionToString b]) /\
  (forall a b : ComboBoxOption,
      packFieldLevelSecurity exclude [a; b] =
      ["~" +:+ comboBoxOptionToString a; "~" +:+ comboBoxOptionToString b]) /\
  (forall indexPerm : list RoleIndexPermissionStateClass,
      Forall2
        (fun entry perm =>
           fls perm =
             packFieldLevelSecurity (fieldLevelSecurityMethod entry)
               (fieldLevelSecurityFields entry) /\
           index_patterns perm =
             map comboBoxOptionToString (indexPatterns entry) /\
           masked_fields perm =
             map comboBoxOptionToString (maskedFields entry) /\
           allowed_actions perm =
             map comboBoxOptionToString (allowedActions entry) /\
           dls perm = docLevelSecurity entry)
        indexPerm (unbuildIndexPermissionState indexPerm)).
Proof.
  repeat split; try reflexivity.
  - intros fieldOptions. unfold packFieldLevelSecurity. apply map_map.
  - intros indexPerm. unfold unbuildIndexPermissionState.
    induction indexPerm as [|entry indexPerm IH]; simpl; constructor;
      [repeat split | exact IH].
Qed.

(** C4.  Whatever the wire entries say, every entry of the built state has
    empty [allowedActions] and [maskedFields]; there is one entry per wire
    entry. *)
Theorem build_leaves_actions_and_masks_empty
    (indexPerm : list RoleIndexPermission) :
  Forall (fun entry => allowedActions entry = [] /\ maskedFields entry = [])
    (buildIndexPermissionState indexPerm) /\
  length (buildIndexPermissionState indexPerm) = length indexPerm.
Proof.
  unfold buildIndexPermissionState. split.
  - induction indexPerm as [|perm indexPerm IH]; simpl; constructor;
      [split; reflexivity | exact IH].
  - apply length_map.
Qed.

(** C5.  [getEmptyIndexPermission] is the entry with no index patterns, no
    actions, empty document-level security, method [exclude], no fields and
    no masked fields, and the "add" button appends this value. *)
Theorem empty_index_permission_default :
  getEmptyIndexPermission =
    {| indexPatterns := [];
       allowedActions := [];
       docLevelSecurity := "";
       fieldLevelSecurityMethod := exclude;
       fieldLevelSecurityFields := [];
       maskedFields := [] |} /\
  forall state prevState : list RoleIndexPermissionStateClass,
    addOnClick (IndexPermissionPanel state) prevState =
    prevState ++ [ {| indexPatterns := [];
                      allowedActions := [];
                      docLevelSecurity := "";
                      fieldLevelSecurityMethod := exclude;
                      fieldLevelSecurityFields := [];
                      maskedFields := [] |} ].
Proof. split; reflexivity. Qed.

(** C6, as the code has it.  Building and unbuilding returns an [fls] list
    literally exactly when the list is uniform: the marker on every token
    or on none, whatever other marker characters the tokens contain. *)
Theorem fls_literal_round_trip_iff_uniform perm :
  ComboBoxRoundTrip ->
  (map fls (unbuildIndexPermissionState (buildIndexPermissionState [perm])) =
     [fls perm]
   <-> UniformlyPrefixed (fls perm)).
Proof.
  intros Hrt. rewrite unbuild_build_singleton by assumption. simpl. split.
  - intros Heq. apply flsRoundTrip_literal_uniform; [assumption|].
    now injection Heq.
  - intros Hu. now rewrite flsRoundTrip_uniform.
Qed.

(** C9.  An entry with method [exclude] and no fields packs to an empty
    [fls], so unbuilding and building it again gives method [include]. *)
Theorem exclude_without_fields_comes_back_include entry :
  fieldLevelSecurityMethod entry = exclude ->
  fieldLevelSecurityFields entry = [] ->
  packFieldLevelSecurity exclude [] = [] /\
  map fls (unbuildIndexPermissionState [entry]) = [[]] /\
  map fieldLevelSecurityMethod
    (buildIndexPermissionState (unbuildIndexPermissionState [entry])) =
  [include].
Proof.
  intros Hmethod Hfields. simpl. rewrite Hmethod, Hfields. auto.
Qed.

(** C10.  [getFieldLevelSecurityFields] gives, in the order of the input
    and one for one, the option of each token with a single leading marker
    removed when there is one; a marker further inside a token stays. *)
Theorem fields_strip_one_leading_marker tokens :
  (exists stripped : list string,
      Forall2 StripsLeadingMarker tokens stripped /\
      getFieldLevelSecurityFields tokens =
      map stringToComboBoxOption stripped) /\
  length (getFieldLevelSecurityFields tokens) = length tokens /\
  getFieldLevelSecurityFields ["~~a"; "a~b"] =
    [stringToComboBoxOption "~a"; stringToComboBoxOption "a~b"].
Proof.
  unfold getFieldLevelSecurityFields. repeat split.
  - eexists. split; [apply map_replaceLeadingTilde_strips | reflexivity].
  - now rewrite !length_map.
Qed.

End Conversion.

(** ** Properties of the rendered panel *)

Section Panel.

Context `{ComboBoxUtils}.

Implicit Types (state prevState : list RoleIndexPermissionStateClass).

Lemma Forall2_imap {A B : Type} (P : A -> B -> Prop) (f : nat -> A -> B)
    (l : list A) :
  (forall i x, l !! i = Some x -> P x (f i x)) -> Forall2 P l (imap f l).
Proof.
  revert f. induction l as [|x l IH]; intros f Hf; simpl; constructor.
  - now apply (Hf 0).
  - apply IH. intros i y Hy. now apply (Hf (S i)).
Qed.

Lemma lookup_panel state i permission :
  state !! i = Some permission ->
  exists accordion,
    generateIndexPermissionPanels state !! i = Some accordion /\
    removeOnClick accordion = removeElementFromArray i.
Proof.
  intros Hi. unfold generateIndexPermissionPanels.
  rewrite list_lookup_imap, Hi. simpl. eauto.
Qed.

(** C7.  The "add" updater appends exactly one entry, the default one, to
    whatever array it is applied to, the empty one included, so the array is
    one longer.  There is one accordion per entry, and the "Remove" updater of
    the accordion at index [i] removes exactly the entry at [i] of any array
    that has one: the array is one shorter, the entries before [i] keep their
    place and the entries after it move down by one, in the same order. *)
Theorem add_and_remove_actions state :
  (forall prevState,
      let next := addOnClick (IndexPermissionPanel state) prevState in
      length next = S (length prevState) /\
      take (length prevState) next = prevState /\
      next !! length prevState = Some getEmptyIndexPermission) /\
  length (panels (IndexPermissionPanel state)) = length state /\
  (forall i : nat,
      i < length state ->
      exists accordion : IndexPermissionAccordion,
        panels (IndexPermissionPanel state) !! i = Some accordion /\
        forall prevState,
          i < length prevState ->
          let next := removeOnClick accordion prevState in
          S (length next) = length prevState /\
          next = take i prevState ++ drop (S i) prevState /\
          (forall j, j < i -> next !! j = prevState !! j) /\
          (forall j, i <= j -> next !! j = prevState !! S j)).
Proof.
  split; [|split].
  - intros prevState. simpl. unfold appendElementToArray. repeat split.
    + rewrite length_app. simpl. lia.
    + apply take_app_length.
    + now apply list_lookup_middle.
  - simpl. unfold generateIndexPermissionPanels. apply length_imap.
  - intros i Hi.
    destruct (lookup_lt_is_Some_2 state i Hi) as [permission Hperm].
    destruct (lookup_panel state i permission Hperm) as (accordion & Hacc & Hrm).
    exists accordion. split; [exact Hacc|].
    intros prevState Hprev. simpl. rewrite Hrm.
    unfold removeElementFromArray. repeat split.
    + rewrite length_delete by now apply lookup_lt_is_Some_2. lia.
    + apply delete_take_drop.
    + intros j Hj. now apply list_lookup_delete_lt.
    + intros j Hj. now apply list_lookup_delete_ge.
Qed.

(** C8, as the code has it.  The text of each accordion button is the
    entry's index-pattern strings joined by [", "] when that string is not
    empty and the placeholder otherwise; the joined string is empty exactly
    when the entry has no index pattern or a single pattern whose string is
    empty. *)
Theorem accordion_summary state :
  Forall2
    (fun permission accordion =>
       let patterns := map comboBoxOptionToString (indexPatterns permission) in
       let summary := Js.join ", " patterns in
       (summary <> "" -> buttonContent accordion = summary) /\
       (summary = "" -> buttonContent accordion = "Add index permission") /\
       (summary = "" <-> patterns = [] \/ patterns = [""]))
    state (generateIndexPermissionPanels state).
Proof.
  apply Forall2_imap. intros i permission _. simpl. repeat split.
  - destruct (Js.join _ _); [congruence | reflexivity].
  - now intros ->.
  - now apply join_empty.
  - now apply join_empty.
Qed.

End Panel.

(** ** Further properties: how the two conversions compose *)

Section Composition.

Context `{ComboBoxUtils}.

Implicit Types (perm : RoleIndexPermission)
               (entry : RoleIndexPermissionStateClass)
               (tokens : list string)
               (fieldOptions : ComboBoxOptions).

Lemma map_map_id_Forall {A B : Type} (f : A -> B) (g : B -> A) (l : list A) :
  map g (map f l) = l <-> Forall (fun x => g (f x) = x) l.
Proof.
  induction l as [|x l IH]; simpl.
  - split; [constructor | reflexivity].
  - rewrite Forall_cons, <- IH. split.
    + intros Heq. now injection Heq.
    + intros [-> ->]. reflexivity.
Qed.

Lemma method_exclude_iff tokens :
  getFieldLevelSecurityMethod tokens = exclude <-> Exists MarkerPrefixed tokens.
Proof.
  unfold getFieldLevelSecurityMethod. rewrite <- some_startsWithTilde_true.
  destruct (Js.some Js.startsWithTilde tokens); split; congruence.
Qed.

Lemma method_include_iff tokens :
  getFieldLevelSecurityMethod tokens = include <->
  Forall (fun s => ~ MarkerPrefixed s) tokens.
Proof.
  unfold getFieldLevelSecurityMethod. rewrite <- some_startsWithTilde_false.
  destruct (Js.some Js.startsWithTilde tokens); split; congruence.
Qed.

Lemma Forall_map_iff {A B : Type} (f : A -> B) (P : B -> Prop) (l : list A) :
  Forall P (map f l) <-> Forall (fun x => P (f x)) l.
Proof.
  induction l as [|x l IH]; simpl.
  - split; constructor.
  - now rewrite !Forall_cons, IH.
Qed.

Lemma method_of_packed_exclude fieldOptions :
  getFieldLevelSecurityMethod (packFieldLevelSecurity exclude fieldOptions) =
  match fieldOptions with [] => include | _ :: _ => exclude end.
Proof. destruct fieldOptions; reflexivity. Qed.

Lemma method_of_packed_iff (method : FieldLevelSecurityMethod) fieldOptions :
  getFieldLevelSecurityMethod (packFieldLevelSecurity method fieldOptions) =
    method
  <-> (method = exclude -> fieldOptions <> []) /\
      (method = include ->
       Forall (fun o => ~ MarkerPrefixed (comboBoxOptionToString o))
         fieldOptions).
Proof.
  destruct method.
  - unfold packFieldLevelSecurity. rewrite method_include_iff, Forall_map_iff.
    split; [intros Hall; split; [discriminate | auto] | intros [_ Hall]; auto].
  - rewrite method_of_packed_exclude. destruct fieldOptions; split.
    + discriminate.
    + intros [Hne _]. now destruct Hne.
    + intros _. split; [discriminate | discriminate].
    + reflexivity.
Qed.

Lemma map_strip_map_mark (fields : list string) :
  map Js.replaceLeadingTilde (map (fun field => "~" +:+ field) fields) = fields.
Proof.
  induction fields as [|f fields IH]; simpl; [reflexivity|]. now rewrite IH.
Qed.

Lemma fields_of_packed (method : FieldLevelSecurityMethod) fieldOptions :
  (method = include ->
   Forall (fun o => ~ MarkerPrefixed (comboBoxOptionToString o)) fieldOptions) ->
  getFieldLevelSecurityFields (packFieldLevelSecurity method fieldOptions) =
  map stringToComboBoxOption (map comboBoxOptionToString fieldOptions).
Proof.
  intros Hinc. unfold getFieldLevelSecurityFields, packFieldLevelSecurity.
  destruct method.
  - rewrite map_strip_none_prefixed; [reflexivity|].
    apply Forall_map_iff. auto.
  - now rewrite map_strip_map_mark.
Qed.

Lemma unbuild_build_map (indexPerm : list RoleIndexPermission) :
  ComboBoxRoundTrip ->
  unbuildIndexPermissionState (buildIndexPermissionState indexPerm) =
  map (fun perm => {| index_patterns := index_patterns perm;
                      dls := dls perm;
                      fls := flsRoundTrip (fls perm);
                      masked_fields := [];
                      allowed_actions := [] |}) indexPerm.
Proof.
  intros Hrt. unfold unbuildIndexPermissionState, buildIndexPermissionState.
  induction indexPerm as [|perm indexPerm IH]; simpl; [reflexivity|].
  now rewrite IH, map_toString_ofString.
Qed.

Lemma map_mark_unprefixed tokens :
  Forall2 MarksUnprefixed tokens
    (map (fun t => "~" +:+ Js.replaceLeadingTilde t) tokens).
Proof.
  induction tokens as [|t tokens IH]; simpl; constructor; [|exact IH].
  destruct (Js.startsWithTilde t) eqn:Ht.
  - left. apply startsWithTilde_true in Ht. split; [exact Ht|].
    now apply remark_stripped.
  - right. apply startsWithTilde_false in Ht. split; [exact Ht|].
    now rewrite replaceLeadingTilde_unmarked.
Qed.

Lemma flsRoundTrip_is_uniform tokens :
  ComboBoxRoundTrip -> UniformlyPrefixed (flsRoundTrip tokens).
Proof.
  intros Hrt. rewrite flsRoundTrip_unfold by assumption.
  destruct (Js.some Js.startsWithTilde tokens) eqn:Hsome.
  - left. apply Forall_map_iff, Forall_forall. intros t _.
    now exists (Js.replaceLeadingTilde t).
  - right. apply some_startsWithTilde_false in Hsome.
    now rewrite map_strip_none_prefixed.
Qed.

(** X1.  What loading and saving does to any list of wire permissions: entry
    by entry, the index patterns and the document-level security text are
    kept, allowed actions and masked fields come back empty, and the [fls]
    list is kept when no token carries the marker; when some token does, the
    tokens that carry it are kept and every other token gets the marker. *)
Theorem unbuild_build_normalises (indexPerm : list RoleIndexPermission) :
  ComboBoxRoundTrip ->
  Forall2
    (fun perm out =>
       index_patterns out = index_patterns perm /\
       dls out = dls perm /\
       masked_fields out = [] /\
       allowed_actions out = [] /\
       (~ Exists MarkerPrefixed (fls perm) -> fls out = fls perm) /\
       (Exists MarkerPrefixed (fls perm) ->
        Forall2 MarksUnprefixed (fls perm) (fls out)))
    indexPerm
    (unbuildIndexPermissionState (buildIndexPermissionState indexPerm)).
Proof.
  intros Hrt. rewrite unbuild_build_map by assumption.
  induction indexPerm as [|perm indexPerm IH]; simpl; constructor; [|exact IH].
  simpl. rewrite flsRoundTrip_unfold by assumption.
  rewrite <- some_startsWithTilde_true.
  destruct (Js.some Js.startsWithTilde (fls perm)) eqn:Hsome; repeat split;
    try congruence.
  - intros _. apply map_mark_unprefixed.
  - intros _. apply map_strip_none_prefixed.
    now apply some_startsWithTilde_false.
Qed.

(** X2.  Whatever the wire permissions look like, after loading and saving
    every [fls] list follows the convention: the marker on every token or on
    none. *)
Theorem unbuild_build_fls_uniform (indexPerm : list RoleIndexPermission) :
  ComboBoxRoundTrip ->
  Forall (fun out => UniformlyPrefixed (fls out))
    (unbuildIndexPermissionState (buildIndexPermissionState indexPerm)).
Proof.
  intros Hrt. rewrite unbuild_build_map by assumption.
  apply Forall_map_iff, Forall_forall. intros perm _. simpl.
  now apply flsRoundTrip_is_uniform.
Qed.

(** X3.  Loading and saving is idempotent: a second load and save of the
    result changes nothing. *)
Theorem unbuild_build_idempotent (indexPerm : list RoleIndexPermission) :
  ComboBoxRoundTrip ->
  unbuildIndexPermissionState
    (buildIndexPermissionState
       (unbuildIndexPermissionState (buildIndexPermissionState indexPerm))) =
  unbuildIndexPermissionState (buildIndexPermissionState indexPerm).
Proof.
  intros Hrt. rewrite !unbuild_build_map by assumption. rewrite map_map.
  apply map_ext. intros perm. simpl.
  rewrite (flsRoundTrip_uniform (flsRoundTrip (fls perm)));
    auto using flsRoundTrip_is_uniform.
Qed.

(** X4.  A state entry survives saving and loading exactly when its allowed
    actions and masked fields are empty, its index-pattern and field options
    are canonical, its field list is not empty if the method is [exclude],
    and no field string starts with the marker if the method is [include]. *)
Theorem build_unbuild_entry_iff entry :
  buildIndexPermissionState (unbuildIndexPermissionState [entry]) = [entry]
  <-> allowedActions entry = [] /\
      maskedFields entry = [] /\
      Forall CanonicalOption (indexPatterns entry) /\
      Forall CanonicalOption (fieldLevelSecurityFields entry) /\
      (fieldLevelSecurityMethod entry = exclude ->
       fieldLevelSecurityFields entry <> []) /\
      (fieldLevelSecurityMethod entry = include ->
       Forall (fun o => ~ MarkerPrefixed (comboBoxOptionToString o))
         (fieldLevelSecurityFields entry)).
Proof.
  destruct entry as [ips aas d m fs mfs]. simpl.
  unfold CanonicalOption. rewrite <- !map_map_id_Forall. split.
  - intros Heq. injection Heq as Hips Haas Hm Hfs Hmfs.
    apply method_of_packed_iff in Hm as Hcond. destruct Hcond as [Hex Hinc].
    rewrite fields_of_packed in Hfs by assumption. auto 10.
  - intros (-> & -> & Hips & Hfs & Hex & Hinc).
    assert (Hm : getFieldLevelSecurityMethod (packFieldLevelSecurity m fs) = m)
      by (apply method_of_packed_iff; auto).
    rewrite Hm, fields_of_packed, Hips, Hfs by assumption. reflexivity.
Qed.

(** X5.  The method read back from a packed field list is the method that
    was packed exactly when the list is not empty for [exclude], and no field
    string starts with the marker for [include]. *)
Theorem method_survives_pack_iff (method : FieldLevelSecurityMethod)
    fieldOptions :
  getFieldLevelSecurityMethod (packFieldLevelSecurity method fieldOptions) =
    method
  <-> (method = exclude -> fieldOptions <> []) /\
      (method = include ->
       Forall (fun o => ~ MarkerPrefixed (comboBoxOptionToString o))
         fieldOptions).
Proof. apply method_of_packed_iff. Qed.

(** X6.  The method of a token list is [exclude] as soon as it is for a part
    of the list, and it does not depend on the order of the tokens. *)
Theorem method_exclude_absorbing tokens :
  (forall more : list string,
      getFieldLevelSecurityMethod (tokens ++ more) = exclude <->
      getFieldLevelSecurityMethod tokens = exclude \/
      getFieldLevelSecurityMethod more = exclude) /\
  (forall shuffled : list string,
      Permutation tokens shuffled ->
      getFieldLevelSecurityMethod shuffled =
      getFieldLevelSecurityMethod tokens).
Proof.
  split.
  - intros more. rewrite !method_exclude_iff. apply Exists_app.
  - intros shuffled Hperm.
    assert (Hiff : Exists MarkerPrefixed shuffled <->
                   Exists MarkerPrefixed tokens).
    { rewrite !Exists_exists. split; intros (t & Hin & Ht); exists t;
        (split; [|exact Ht]).
      - now rewrite Hperm.
      - now rewrite <- Hperm. }
    rewrite <- !method_exclude_iff in Hiff.
    destruct (getFieldLevelSecurityMethod shuffled),
      (getFieldLevelSecurityMethod tokens); try reflexivity.
    + exact (proj2 Hiff eq_refl).
    + symmetry. exact (proj1 Hiff eq_refl).
Qed.

Lemma Forall2_imap_map {A B C : Type} (P : A -> C -> Prop) (g : A -> B)
    (f : nat -> B -> C) (l : list A) :
  (forall i x, P x (f i (g x))) -> Forall2 P l (imap f (map g l)).
Proof.
  revert f. induction l as [|x l IH]; intros f Hf; simpl; constructor.
  - apply Hf.
  - apply IH. intros i y. apply (Hf (S i)).
Qed.

Lemma accordionId_imap_from (k : nat)
    (state : list RoleIndexPermissionStateClass) (body : nat -> string)
    (remove : nat -> SetStateAction (list RoleIndexPermissionStateClass))
    (text : RoleIndexPermissionStateClass -> string) :
  map accordionId
    (imap (fun i permission =>
             {| accordionId := body (k + i);
                buttonContent := text permission;
                removeOnClick := remove (k + i) |}) state) =
  map body (seq k (length state)).
Proof.
  revert k. induction state as [|permission state IH]; intros k; simpl;
    [reflexivity|].
  rewrite Nat.add_0_r. f_equal.
  rewrite <- (IH (S k)). f_equal. apply imap_ext. intros i x _. simpl.
  now rewrite Nat.add_succ_r.
Qed.

(** X7.  There is one accordion per entry; the accordion of the entry at
    index [i] has the id ["index-permission-"] followed by the decimal form
    of [i], and no two accordions of a panel share an id. *)
Theorem accordion_ids_distinct (state : list RoleIndexPermissionStateClass) :
  length (generateIndexPermissionPanels state) = length state /\
  map accordionId (generateIndexPermissionPanels state) =
    map (fun i => "index-permission-" +:+ pretty i) (seq 0 (length state)) /\
  NoDup (map accordionId (generateIndexPermissionPanels state)).
Proof.
  assert (Hids : map accordionId (generateIndexPermissionPanels state) =
                 map (fun i => "index-permission-" +:+ pretty i)
                   (seq 0 (length state))).
  { unfold generateIndexPermissionPanels.
    exact (accordionId_imap_from 0 state
             (fun i => "index-permission-" +:+ pretty i)
             removeElementFromArray _). }
  split; [apply length_imap|]. split; [exact Hids|].
  rewrite Hids.
  change (NoDup ((fun i => "index-permission-" +:+ pretty i) <$>
                 seq 0 (length state))).
  apply NoDup_fmap_2; [|apply NoDup_seq].
  intros i j Heq. apply (inj pretty).
  exact (String.app_inj "index-permission-" _ _ Heq).
Qed.

(** X8.  The accordion of an entry loaded from the backend shows the wire
    index patterns joined by [", "], or the placeholder when that string is
    empty. *)
Theorem summary_of_loaded_permission (indexPerm : list RoleIndexPermission) :
  ComboBoxRoundTrip ->
  Forall2
    (fun perm accordion =>
       let summary := Js.join ", " (index_patterns perm) in
       (summary <> "" -> buttonContent accordion = summary) /\
       (summary = "" -> buttonContent accordion = "Add index permission"))
    indexPerm
    (generateIndexPermissionPanels (buildIndexPermissionState indexPerm)).
Proof.
  intros Hrt. unfold generateIndexPermissionPanels, buildIndexPermissionState.
  apply Forall2_imap_map. intros i perm. simpl.
  rewrite map_toString_ofString by assumption. split.
  - destruct (Js.join _ _); [congruence | reflexivity].
  - now intros ->.
Qed.

End Composition.

(** ** The model on labelled options *)

Section Labelled.

#[local] Existing Instance labelComboBoxUtils.

Lemma label_round_trip : ComboBoxRoundTrip.
Proof. intros s. reflexivity. Defined.

Lemma unbuild_build_uniform_fls_witness :
  let perm := {| index_patterns := ["logs-*"; "metrics"];
                 dls := "{}";
                 fls := ["~secret"; "~~odd"];
                 masked_fields := ["ssn"];
                 allowed_actions := ["read"] |} in
  (fls perm = [] \/
   Forall MarkerPrefixed (fls perm) \/
   Forall (fun s => ~ MarkerPrefixed s) (fls perm)) /\
  unbuildIndexPermissionState (buildIndexPermissionState [perm]) =
  [ {| index_patterns := ["logs-*"; "metrics"];
       dls := "{}";
       fls := ["~secret"; "~~odd"];
       masked_fields := [];
       allowed_actions := [] |} ].
Proof.
  intros perm.
  assert (Hfls : fls perm = [] \/
                 Forall MarkerPrefixed (fls perm) \/
                 Forall (fun s => ~ MarkerPrefixed s) (fls perm)).
  { right. left. repeat constructor; eexists; reflexivity. }
  split; [exact Hfls|].
  exact (unbuild_build_uniform_fls perm label_round_trip Hfls).
Defined.

Lemma fls_literal_round_trip_iff_uniform_witness :
  let perm := {| index_patterns := []; dls := "";
                 fls := ["a~b"; "c"];
                 masked_fields := []; allowed_actions := [] |} in
  map fls (unbuildIndexPermissionState (buildIndexPermissionState [perm])) =
    [["a~b"; "c"]]
  <-> UniformlyPrefixed ["a~b"; "c"].
Proof.
  intros perm.
  exact (fls_literal_round_trip_iff_uniform perm label_round_trip).
Defined.

(** C6 as stated fails on a list that mixes tokens with and without the
    marker: the token without it comes back with the marker in front. *)
Lemma mixed_fls_not_literal :
  let perm := {| index_patterns := []; dls := "";
                 fls := ["a"; "~b"];
                 masked_fields := []; allowed_actions := [] |} in
  map fls (unbuildIndexPermissionState (buildIndexPermissionState [perm])) =
    [["~a"; "~b"]] /\
  map fls (unbuildIndexPermissionState (buildIndexPermissionState [perm])) <>
    [fls perm].
Proof. split; [reflexivity | discriminate]. Qed.

Lemma exclude_without_fields_comes_back_include_witness :
  packFieldLevelSecurity exclude [] = [] /\
  map fls (unbuildIndexPermissionState [getEmptyIndexPermission]) = [[]] /\
  map fieldLevelSecurityMethod
    (buildIndexPermissionState
       (unbuildIndexPermissionState [getEmptyIndexPermission])) =
  [include].
Proof.
  exact (exclude_without_fields_comes_back_include getEmptyIndexPermission
           eq_refl eq_refl).
Defined.

Example pack_labelled_options :
  packFieldLevelSecurity include [ {| label := "a" |}; {| label := "b" |} ] =
    ["a"; "b"] /\
  packFieldLevelSecurity exclude [ {| label := "a" |}; {| label := "b" |} ] =
    ["~a"; "~b"].
Proof. split; reflexivity. Qed.

Lemma add_and_remove_actions_witness :
  let entryFor (pattern : string) :=
    {| indexPatterns := [ {| label := pattern |} ];
       allowedActions := [];
       docLevelSecurity := "";
       fieldLevelSecurityMethod := include;
       fieldLevelSecurityFields := [];
       maskedFields := [] |} in
  let state := [entryFor "a"; entryFor "b"; entryFor "c"] in
  let later := [entryFor "x"; entryFor "y"] in
  1 < length state /\
  1 < length later /\
  (let next := addOnClick (IndexPermissionPanel []) [] in
   length next = 1 /\
   take 0 next = [] /\
   next !! 0 = Some getEmptyIndexPermission) /\
  exists accordion : IndexPermissionAccordion,
    panels (IndexPermissionPanel state) !! 1 = Some accordion /\
    removeOnClick accordion state = [entryFor "a"; entryFor "c"] /\
    removeOnClick accordion later = [entryFor "x"].
Proof.
  intros entryFor state later.
  assert (Hi : 1 < length state) by (simpl; lia).
  assert (Hl : 1 < length later) by (simpl; lia).
  destruct (add_and_remove_actions []) as [Hadd _].
  destruct (add_and_remove_actions state) as (_ & _ & Hremove).
  destruct (Hremove 1 Hi) as (accordion & Hacc & Hrm).
  split; [exact Hi|]. split; [exact Hl|]. split; [exact (Hadd [])|].
  exists accordion. split; [exact Hacc|]. split.
  - exact (proj1 (proj2 (Hrm state Hi))).
  - exact (proj1 (proj2 (Hrm later Hl))).
Defined.

(** C8 as stated fails on an entry with two patterns that are both the
    empty string: the joined string is the separator, and the placeholder
    is not shown. *)
Lemma summary_of_two_empty_patterns :
  let permission :=
    {| indexPatterns := [ {| label := "" |}; {| label := "" |} ];
       allowedActions := [];
       docLevelSecurity := "";
       fieldLevelSecurityMethod := exclude;
       fieldLevelSecurityFields := [];
       maskedFields := [] |} in
  Forall (fun o => comboBoxOptionToString o = "") (indexPatterns permission) /\
  Js.join ", " (map comboBoxOptionToString (indexPatterns permission)) <> "" /\
  map buttonContent (generateIndexPermissionPanels [permission]) = [", "] /\
  map buttonContent (generateIndexPermissionPanels [permission]) <>
    ["Add index permission"].
Proof.
  repeat split; try discriminate. repeat constructor.
Qed.

Lemma unbuild_build_normalises_witness :
  let indexPerm :=
    [ {| index_patterns := ["logs-*"]; dls := "{}";
         fls := ["a"; "~b"];
         masked_fields := ["ssn"]; allowed_actions := ["read"] |};
      {| index_patterns := []; dls := "";
         fls := ["c"; "d~"];
         masked_fields := []; allowed_actions := ["write"] |} ] in
  Forall2
    (fun perm out =>
       index_patterns out = index_patterns perm /\
       dls out = dls perm /\
       masked_fields out = [] /\
       allowed_actions out = [] /\
       (~ Exists MarkerPrefixed (fls perm) -> fls out = fls perm) /\
       (Exists MarkerPrefixed (fls perm) ->
        Forall2 MarksUnprefixed (fls perm) (fls out)))
    indexPerm
    (unbuildIndexPermissionState (buildIndexPermissionState indexPerm)).
Proof.
  intros indexPerm. exact (unbuild_build_normalises indexPerm label_round_trip).
Defined.

Lemma unbuild_build_fls_uniform_witness :
  let indexPerm :=
    [ {| index_patterns := ["logs-*"]; dls := "{}";
         fls := ["a"; "~b"; "~~c"];
         masked_fields := []; allowed_actions := [] |} ] in
  Forall (fun out => UniformlyPrefixed (fls out))
    (unbuildIndexPermissionState (buildIndexPermissionState indexPerm)).
Proof.
  intros indexPerm. exact (unbuild_build_fls_uniform indexPerm label_round_trip).
Defined.

Lemma unbuild_build_idempotent_witness :
  let indexPerm :=
    [ {| index_patterns := ["logs-*"]; dls := "{}";
         fls := ["a"; "~b"; "~~c"];
         masked_fields := ["ssn"]; allowed_actions := ["read"] |} ] in
  unbuildIndexPermissionState
    (buildIndexPermissionState
       (unbuildIndexPermissionState (buildIndexPermissionState indexPerm))) =
  unbuildIndexPermissionState (buildIndexPermissionState indexPerm).
Proof.
  intros indexPerm. exact (unbuild_build_idempotent indexPerm label_round_trip).
Defined.

Lemma summary_of_loaded_permission_witness :
  let indexPerm :=
    [ {| index_patterns := ["logs-*"; "metrics"]; dls := "";
         fls := []; masked_fields := []; allowed_actions := [] |};
      {| index_patterns := []; dls := "";
         fls := []; masked_fields := []; allowed_actions := [] |} ] in
  Forall2
    (fun perm accordion =>
       let summary := Js.join ", " (index_patterns perm) in
       (summary <> "" -> buttonContent accordion = summary) /\
       (summary = "" -> buttonContent accordion = "Add index permission"))
    indexPerm
    (generateIndexPermissionPanels (buildIndexPermissionState indexPerm)).
Proof.
  intros indexPerm.
  exact (summary_of_loaded_permission indexPerm label_round_trip).
Defined.

Example loaded_panel_runs :
  let indexPerm :=
    [ {| index_patterns := ["logs-*"; "metrics"]; dls := "";
         fls := ["a"; "~b"]; masked_fields := []; allowed_actions := [] |};
      {| index_patterns := []; dls := "";
         fls := []; masked_fields := []; allowed_actions := [] |} ] in
  map (fun a => (accordionId a, buttonContent a))
    (generateIndexPermissionPanels (buildIndexPermissionState indexPerm)) =
    [ ("index-permission-0", "logs-*, metrics");
      ("index-permission-1", "Add index permission") ] /\
  map fls (unbuildIndexPermissionState (buildIndexPermissionState indexPerm)) =
    [ ["~a"; "~b"]; [] ].
Proof. split; reflexivity. Qed.

End Labelled.
